(** * SU2: the SU2_CFD entry point and the mesh-deformation driver interface

    A shallow embedding of
    - [main] of SU2_CFD.cpp (driver selection, launch and tear-down), and
    - the interface declared in CDeformationDriver.hpp,
    together with the properties stated about them. *)

From Stdlib Require Import ZArith Lia.
From stdpp Require Import base numbers strings option list.

Local Open Scope Z_scope.

(** ** Machine integers *)

(** [unsigned short] is 16 bits wide on every platform SU2 builds on; storing
    an integer into an [unsigned short] keeps it modulo 2^16. *)
Definition USHRT_WIDTH : Z := 16.

Definition to_ushort (x : Z) : Z := x `mod` 2 ^ USHRT_WIDTH.

(** ** Processes: a trace of calls, and the three ways a run can end *)

(** A run either returns a value, leaves through [exit(status)], or reaches
    behaviour the language leaves undefined (a call through a null pointer). *)
Inductive Outcome (A : Type) : Type :=
| Returns (a : A)
| Exits (status : Z)
| Undefined.

Arguments Returns {A} a.
Arguments Exits {A} status.
Arguments Undefined {A}.

(** A computation appends the calls it makes to the trace it is given. *)
Definition Proc (E A : Type) : Type := list E -> Outcome A * list E.

#[global] Instance Proc_ret {E} : MRet (Proc E) :=
  fun A a tr => (Returns a, tr).

#[global] Instance Proc_bind {E} : MBind (Proc E) :=
  fun A B k m tr =>
    match m tr with
    | (Returns a, tr') => k a tr'
    | (Exits status, tr') => (Exits status, tr')
    | (Undefined, tr') => (Undefined, tr')
    end.

Definition emit {E} (e : E) : Proc E unit :=
  fun tr => (Returns tt, tr ++ [e]).

(** [exit(status)] does not return: the rest of the computation is dropped. *)
Definition exit {E A} (status : Z) : Proc E A :=
  fun tr => (Exits status, tr).

Definition undefined_behaviour {E A} : Proc E A :=
  fun tr => (Undefined, tr).

(** <cstdlib> *)
Definition EXIT_SUCCESS : Z := 0.
Definition EXIT_FAILURE : Z := 1.

(** ** SU2_CFD.cpp *)

Module SU2_CFD.

(** The enumerators of ENUM_SOLVER that [main] names; every other solver kind
    (Euler, Navier-Stokes, RANS, the adjoint kinds, ...) is [OTHER_SOLVER]. *)
Inductive ENUM_SOLVER : Type :=
| FEM_ELASTICITY
| POISSON_EQUATION
| WAVE_EQUATION
| HEAT_EQUATION
| OTHER_SOLVER (id : N).

#[global] Instance ENUM_SOLVER_eq_dec : EqDecision ENUM_SOLVER.
Proof. solve_decision. Defined.

(** The unsteady modes: [main] names HARMONIC_BALANCE only; steady runs and
    the time-stepping modes are [OTHER_UNSTEADY]. *)
Inductive ENUM_UNSTEADY : Type :=
| HARMONIC_BALANCE
| OTHER_UNSTEADY (id : N).

#[global] Instance ENUM_UNSTEADY_eq_dec : EqDecision ENUM_UNSTEADY.
Proof. solve_decision. Defined.

(** What [main] reads from the CConfig object, one field per accessor. *)
Record CConfig : Type := {
  GetKind_Solver : ENUM_SOLVER;
  GetUnsteady_Simulation : ENUM_UNSTEADY;
  GetnTimeInstances : Z;
  GetFSI_Simulation : bool;
  GetMesh_FileName : string;
  GetMesh_FileFormat : Z
}.

(** The five classes derived from CDriver that [main] can instantiate. *)
Inductive DriverClass : Type :=
| CGeneralDriver
| CHBDriver
| CGeneralHBDriver
| CFSIDriver
| CFluidDriver.

#[global] Instance DriverClass_eq_dec : EqDecision DriverClass.
Proof. solve_decision. Defined.

(** A driver object: its class and the three constructor arguments
    [(confFile, val_nZone, val_nDim)] it was built from. *)
Record CDriver : Type := {
  driver_class : DriverClass;
  confFile : string;
  val_nZone : Z;
  val_nDim : Z
}.

#[global] Instance CDriver_eq_dec : EqDecision CDriver.
Proof. solve_decision. Defined.

(** The calls [main] makes into code outside the file, in program order. *)
Inductive Event : Type :=
| MPI_Init
| MPI_Buffer_attach
| new_CConfig (case_filename : string)
| cout (msg : string)
| new_CDriver (driver : CDriver)
| delete_CConfig
| StartSolver (driver : CDriver)
| Postprocessing (driver : CDriver)
| delete_CDriver (driver : CDriver)
| MPI_Buffer_detach
| free_buffer
| MPI_Finalize.

#[global] Instance Event_eq_dec : EqDecision Event.
Proof. solve_decision. Defined.

(** What surrounds the process: the build flag, the configuration the CConfig
    constructor parses out of a file, and the zone count and dimension the
    static CConfig readers find in the mesh file. *)
Record Environment : Type := {
  HAVE_MPI : bool;
  parse_config : string -> CConfig;
  GetnZone : string -> Z -> CConfig -> Z;
  GetnDim : string -> Z -> Z
}.

Definition multizone_error : string :=
  "The required solver doesn't support multizone simulations".

(** [new C(confFile, val_nZone, val_nDim)] *)
Definition new (cls : DriverClass) (config_file_name : string) (n nDim : Z)
  : Proc Event (option CDriver) :=
  let driver := {| driver_class := cls; confFile := config_file_name;
                   val_nZone := n; val_nDim := nDim |} in
  emit (new_CDriver driver) ;; mret (Some driver).

(** Lines 80-128, the cascade that instantiates the driver; its value is the
    pointer stored in [driver]. [nTimeInstances] and [nGeomZones] are
    [unsigned short] (line 41): the assignments of lines 93 and 108 keep the
    value modulo 2^16. The product of line 108 is formed in [int], where it
    is exact up to INT_MAX; above that the low 16 bits are still those of the
    exact product on the two's-complement machines SU2 runs on. *)
Definition instantiate_driver (config_file_name : string) (config : CConfig)
    (nZone nDim : Z) (fsi : bool) : Proc Event (option CDriver) :=
  if bool_decide (GetKind_Solver config = FEM_ELASTICITY)
     || bool_decide (GetKind_Solver config = POISSON_EQUATION)
     || bool_decide (GetKind_Solver config = WAVE_EQUATION)
     || bool_decide (GetKind_Solver config = HEAT_EQUATION)
  then
    (if nZone >? 1
     then emit (cout multizone_error) ;; exit EXIT_FAILURE
     else mret tt) ;;
    new CGeneralDriver config_file_name nZone nDim
  else if bool_decide (GetUnsteady_Simulation config = HARMONIC_BALANCE) && (nZone =? 1)
  then
    let nTimeInstances := to_ushort (GetnTimeInstances config) in
    new CHBDriver config_file_name nTimeInstances nDim
  else if bool_decide (GetUnsteady_Simulation config = HARMONIC_BALANCE) && (nZone >? 1)
  then
    let nGeomZones := nZone in
    let nTimeInstances := to_ushort (GetnTimeInstances config * nGeomZones) in
    new CGeneralHBDriver config_file_name nTimeInstances nDim
  else if (nZone =? 2) && fsi
  then
    new CFSIDriver config_file_name nZone nDim
  else
    new CFluidDriver config_file_name nZone nDim.

(** *** The cascade as a decision *)

(** Line 80: the solver kinds that only run on a single zone. *)
Definition single_zone_solver (config : CConfig) : bool :=
  bool_decide (GetKind_Solver config = FEM_ELASTICITY)
  || bool_decide (GetKind_Solver config = POISSON_EQUATION)
  || bool_decide (GetKind_Solver config = WAVE_EQUATION)
  || bool_decide (GetKind_Solver config = HEAT_EQUATION).

(** The condition of each arm of the cascade, named by the class the arm
    instantiates (lines 80, 91, 99 and 115); the last arm is the [else]. *)
Definition guard (cls : DriverClass) (config : CConfig) (nZone : Z) (fsi : bool) : bool :=
  match cls with
  | CGeneralDriver => single_zone_solver config
  | CHBDriver =>
      bool_decide (GetUnsteady_Simulation config = HARMONIC_BALANCE) && (nZone =? 1)
  | CGeneralHBDriver =>
      bool_decide (GetUnsteady_Simulation config = HARMONIC_BALANCE) && (nZone >? 1)
  | CFSIDriver => (nZone =? 2) && fsi
  | CFluidDriver => true
  end.

(** The arm the cascade enters: the first whose condition holds. *)
Definition driver_selection (config : CConfig) (nZone : Z) (fsi : bool) : DriverClass :=
  if guard CGeneralDriver config nZone fsi then CGeneralDriver
  else if guard CHBDriver config nZone fsi then CHBDriver
  else if guard CGeneralHBDriver config nZone fsi then CGeneralHBDriver
  else if guard CFSIDriver config nZone fsi then CFSIDriver
  else CFluidDriver.

(** [driver->method()]: a call through the [driver] pointer. *)
Definition call (method : CDriver -> Event) (driver : option CDriver) : Proc Event unit :=
  match driver with
  | Some d => emit (method d)
  | None => undefined_behaviour
  end.

(** Lines 61-62: the name copied into [config_file_name], for a name that
    fits the buffer of line 42. The bound of the buffer is in
    [strcpy_config_file_name] and [program] below. The entries of [argv] are
    C strings, their characters up to the terminating NUL. *)
Definition get_config_file_name (argc : Z) (argv : list string) : string :=
  if argc =? 2 then default "" (argv !! 1%nat) else "default.cfg".

Section Main.

Variable env : Environment.

Definition when_mpi (body : Proc Event unit) : Proc Event unit :=
  if HAVE_MPI env then body else mret tt.

(** [main], lines 38-154. [argc] and [argv] are the arguments as
    [SU2_MPI::Init] leaves them; the values stored in the [unsigned short]
    locals [nZone] and [nDim] are kept modulo 2^16. *)
Definition main (argc : Z) (argv : list string) : Proc Event Z :=
  when_mpi (emit MPI_Init ;; emit MPI_Buffer_attach) ;;
  let driver : option CDriver := None in
  let config_file_name := get_config_file_name argc argv in
  emit (new_CConfig config_file_name) ;;
  let config := parse_config env config_file_name in
  let nZone := to_ushort (GetnZone env (GetMesh_FileName config)
                                   (GetMesh_FileFormat config) config) in
  let nDim := to_ushort (GetnDim env (GetMesh_FileName config)
                                 (GetMesh_FileFormat config)) in
  let fsi := GetFSI_Simulation config in
  driver ← instantiate_driver config_file_name config nZone nDim fsi;
  emit delete_CConfig ;;
  call StartSolver driver ;;
  call Postprocessing driver ;;
  (match driver with
   | Some d => emit (delete_CDriver d)
   | None => mret tt
   end) ;;
  let driver : option CDriver := None in
  when_mpi (emit MPI_Buffer_detach ;; emit free_buffer ;; emit MPI_Finalize) ;;
  mret EXIT_SUCCESS.

(** A whole run of the program starts from the empty trace. Returning from
    [main] ends the process with the returned status. *)
Definition run (argc : Z) (argv : list string) : Outcome Z * list Event :=
  main argc argv [].

(** The locals of [main] as they stand when the cascade is reached
    (lines 61-74), for the statements below. *)
Section Locals.
Variables (argc : Z) (argv : list string).

Definition config_file_name : string := get_config_file_name argc argv.

Definition config : CConfig := parse_config env config_file_name.

Definition nZone : Z :=
  to_ushort (GetnZone env (GetMesh_FileName config) (GetMesh_FileFormat config) config).

Definition nDim : Z :=
  to_ushort (GetnDim env (GetMesh_FileName config) (GetMesh_FileFormat config)).

Definition fsi : bool := GetFSI_Simulation config.

(** The arm of the cascade this run enters. *)
Definition selected : DriverClass := driver_selection config nZone fsi.

(** The run asks a single-zone solver for several zones (lines 80, 84). *)
Definition mismatch : bool := single_zone_solver config && (nZone >? 1).

(** The second constructor argument of each arm: the zone count, or the
    time-instance count of lines 93 and 108. *)
Definition count_argument : Z :=
  match selected with
  | CHBDriver => to_ushort (GetnTimeInstances config)
  | CGeneralHBDriver => to_ushort (GetnTimeInstances config * nZone)
  | _ => nZone
  end.

(** The object the entered arm constructs when it gets to its [new]. *)
Definition selected_driver : CDriver :=
  {| driver_class := selected; confFile := config_file_name;
     val_nZone := count_argument; val_nDim := nDim |}.
End Locals.

Definition mpi_prologue : list Event :=
  if HAVE_MPI env then [MPI_Init; MPI_Buffer_attach] else [].

Definition mpi_epilogue : list Event :=
  if HAVE_MPI env then [MPI_Buffer_detach; free_buffer; MPI_Finalize] else [].

End Main.

(** *** Reading a trace *)

(** The driver objects a trace constructs, in order. *)
Definition constructed (tr : list Event) : list CDriver :=
  omap (fun e => match e with new_CDriver d => Some d | _ => None end) tr.

(** The events of a trace that concern a driver object: its construction,
    the calls of its methods and its destruction. *)
Definition driver_event (e : Event) : bool :=
  match e with
  | new_CDriver _ | StartSolver _ | Postprocessing _ | delete_CDriver _ => true
  | _ => false
  end.

Definition driver_events (tr : list Event) : list Event :=
  filter (fun e => driver_event e = true) tr.

(** The events that need the CConfig object alive: only its construction and
    destruction appear in the trace, the accessors of lines 71-108 are read
    off [config] directly. *)
Definition config_event (e : Event) : bool :=
  match e with
  | new_CConfig _ | delete_CConfig => true
  | _ => false
  end.

(** The calls of a driver method. *)
Definition driver_method (e : Event) : bool :=
  match e with
  | StartSolver _ | Postprocessing _ => true
  | _ => false
  end.

(** What a driver goes through from its construction to its destruction. *)
Definition driver_life (d : CDriver) : list Event :=
  [new_CDriver d; StartSolver d; Postprocessing d; delete_CDriver d].

(** An arm fires when its condition holds and the condition of no arm
    written before it does: the meaning of [if ... else if ... else]. *)
Definition arm_index (cls : DriverClass) : nat :=
  match cls with
  | CGeneralDriver => 0
  | CHBDriver => 1
  | CGeneralHBDriver => 2
  | CFSIDriver => 3
  | CFluidDriver => 4
  end.

Definition fires (cls : DriverClass) (config : CConfig) (nZone : Z) (fsi : bool) : Prop :=
  guard cls config nZone fsi = true
  /\ forall cls', (arm_index cls' < arm_index cls)%nat -> guard cls' config nZone fsi = false.

(** *** Sample inputs *)

Definition sample_config (kind : ENUM_SOLVER) (unsteady : ENUM_UNSTEADY)
    (time_instances : Z) (fsi : bool) : CConfig :=
  {| GetKind_Solver := kind;
     GetUnsteady_Simulation := unsteady;
     GetnTimeInstances := time_instances;
     GetFSI_Simulation := fsi;
     GetMesh_FileName := "mesh.su2";
     GetMesh_FileFormat := 0 |}.

(** An environment in which every configuration file parses to [cfg] and the
    mesh file has [zones] zones in [dim] dimensions. *)
Definition sample_env (mpi : bool) (cfg : CConfig) (zones dim : Z) : Environment :=
  {| HAVE_MPI := mpi;
     parse_config := fun _ => cfg;
     GetnZone := fun _ _ _ => zones;
     GetnDim := fun _ _ => dim |}.

(** [SU2_CFD case.cfg] *)
Definition sample_argv : list string := ["SU2_CFD"; "case.cfg"].

(** An Euler-like solver kind and a steady run, neither named in [main]. *)
Definition EULER : ENUM_SOLVER := OTHER_SOLVER 1.
Definition STEADY : ENUM_UNSTEADY := OTHER_UNSTEADY 0.

(** A steady two-zone fluid-structure case. *)
Definition fsi_env : Environment :=
  sample_env false (sample_config EULER STEADY 1 true) 2 3.

(** The same two zones and flag, in harmonic-balance mode. *)
Definition hb_fsi_env : Environment :=
  sample_env false (sample_config EULER HARMONIC_BALANCE 3 true) 2 3.

(** A structural solver on a two-zone mesh, in an MPI build. *)
Definition structural_two_zones_env : Environment :=
  sample_env true (sample_config FEM_ELASTICITY STEADY 1 false) 2 3.

(** Harmonic balance, three zones, five time instances per zone. *)
Definition hb_three_zones_env : Environment :=
  sample_env false (sample_config EULER HARMONIC_BALANCE 5 false) 3 3.

(** Harmonic balance on three zones with a structural solver. *)
Definition structural_hb_env : Environment :=
  sample_env false (sample_config FEM_ELASTICITY HARMONIC_BALANCE 5 false) 3 3.

(** Harmonic balance, two zones, 32768 time instances per zone. *)
Definition hb_many_instances_env : Environment :=
  sample_env false (sample_config EULER HARMONIC_BALANCE 32768 false) 2 3.

(** *** More readings of a trace *)

(** The configuration files a trace parses, in order. *)
Definition config_files (tr : list Event) : list string :=
  omap (fun e => match e with new_CConfig f => Some f | _ => None end) tr.

(** The events of the [#ifdef HAVE_MPI] blocks (lines 47-52 and 146-150). *)
Definition mpi_event (e : Event) : bool :=
  match e with
  | MPI_Init | MPI_Buffer_attach | MPI_Buffer_detach | free_buffer | MPI_Finalize => true
  | _ => false
  end.

(** The cascade of lines 80-128 flattened into a table: for each class, the
    condition on the solver kind, the unsteady mode, the zone count and the
    fluid-structure flag under which it is the one instantiated, with no
    reference to the order of the arms. *)
Definition decision_table (cls : DriverClass) (config : CConfig) (nZone : Z)
    (fsi : bool) : bool :=
  let single := single_zone_solver config in
  let hb := bool_decide (GetUnsteady_Simulation config = HARMONIC_BALANCE) in
  match cls with
  | CGeneralDriver => single
  | CHBDriver => negb single && hb && (nZone =? 1)
  | CGeneralHBDriver => negb single && hb && (1 <? nZone)
  | CFSIDriver => negb single && negb hb && (nZone =? 2) && fsi
  | CFluidDriver =>
      negb single && (if hb then nZone <? 1 else negb ((nZone =? 2) && fsi))
  end.

(** *** The buffer of the file name *)

(** [strcpy(dest, src)] into [char dest[size]] writes the characters of
    [src] and a terminating NUL: it stays inside [dest] when [src] is shorter
    than [size]. *)
Definition strcpy_fits (size : Z) (src : string) : bool :=
  Z.of_nat (String.length src) <? size.

(** Lines 42 and 61-62: the copy into [char config_file_name[MAX_STRING_SIZE]]
    is unchecked. [None] is a copy past the end of the buffer, which the
    language leaves undefined. MAX_STRING_SIZE is a macro of another file
    and stays a parameter. *)
Definition strcpy_config_file_name (MAX_STRING_SIZE : Z) (argc : Z)
    (argv : list string) : option string :=
  let src := if argc =? 2 then default "" (argv !! 1%nat) else "default.cfg" in
  if strcpy_fits MAX_STRING_SIZE src then Some src else None.

(** A run of the program with the buffer of line 42: the MPI block of lines
    47-52 comes first, then the copy of lines 61-62; when the name fits the
    run goes on as [run], otherwise its behaviour is undefined from there. *)
Definition program (MAX_STRING_SIZE : Z) (env : Environment) (argc : Z)
    (argv : list string) : Outcome Z * list Event :=
  match strcpy_config_file_name MAX_STRING_SIZE argc argv with
  | Some _ => run env argc argv
  | None => (Undefined, mpi_prologue env)
  end.

(** *** More sample inputs *)

(** [SU2_CFD case.cfg extra] *)
Definition sample_argv_extra : list string := ["SU2_CFD"; "case.cfg"; "extra"].

(** Harmonic balance on one zone, seven time instances, in an MPI build. *)
Definition hb_single_zone_env : Environment :=
  sample_env true (sample_config EULER HARMONIC_BALANCE 7 false) 1 2.

(** A heat solver in harmonic-balance mode with the fluid-structure flag
    set, on a one-zone mesh. *)
Definition heat_one_zone_env : Environment :=
  sample_env false (sample_config HEAT_EQUATION HARMONIC_BALANCE 3 true) 1 3.

(** A steady run with the fluid-structure flag set on a three-zone mesh. *)
Definition fsi_three_zones_env : Environment :=
  sample_env false (sample_config EULER STEADY 1 true) 3 3.

(** Harmonic balance on a mesh that reports no zone. *)
Definition hb_zero_zones_env : Environment :=
  sample_env false (sample_config EULER HARMONIC_BALANCE 3 false) 0 3.

End SU2_CFD.

(** ** CDeformationDriver.hpp *)

Module CDeformationDriver.

Local Open Scope nat_scope.

(** *** The normal at a vertex (lines 141-145) *)

Section Normals.
(** [passivedouble] is the floating-point type of the interface; the
    driver object is whatever CDeformationDriver.cpp makes of it. *)
Variables (passivedouble Driver : Type).

(** The body of [GetVertexNormal(iMarker, iVertex, unitNormal)] is defined
    in CDeformationDriver.cpp; the header only declares it. *)
Variable GetVertexNormal_body : Driver -> nat -> nat -> bool -> list passivedouble.

(** Line 141: [bool unitNormal = false]. A call site either passes the
    third argument or leaves it out and gets the default. *)
Definition GetVertexNormal (self : Driver) (iMarker iVertex : nat)
    (unitNormal : option bool) : list passivedouble :=
  GetVertexNormal_body self iMarker iVertex (default false unitNormal).

(** Lines 143-145. *)
Definition GetVertexUnitNormal (self : Driver) (iMarker iVertex : nat)
  : list passivedouble :=
  GetVertexNormal self iMarker iVertex (Some true).
End Normals.

(** *** The displacement field of a marker (lines 270-282) *)

(** Modelled from the spec: a Vertex-on-Marker, "local vertex index, global
    point id, halo flag" (section 3); the geometry classes are missing. The
    local index is the position in the marker's vertex list. *)
Record Vertex : Type := {
  GetNode : nat;
  halo : bool
}.

(** Modelled from the spec: what the interface does with a displacement
    written on a marker that is not deformable, "a no-op or reported error
    (implementation choice)" (section 4.3); CDeformationDriver.cpp is
    missing. *)
Inductive Misuse : Type :=
| ignored
| reported.

(** Cut a flat vector into [k] consecutive pieces of [n] components. *)
Fixpoint chunks {A} (n k : nat) (l : list A) : list (list A) :=
  match k with
  | O => []
  | S k' => take n l :: chunks n k' (drop n l)
  end.

Section Coupling.
Variable passivedouble : Type.

(** Modelled from the spec: a Boundary Marker with its tag, its vertex list
    and the Displacement Field, "vector of length = nDim per vertex ...
    defined only for vertices on deformable markers" (section 3); the
    geometry and solver classes that hold them are missing. *)
Record Marker : Type := {
  Marker_Tag : string;
  deformable : bool;
  vertex : list Vertex;
  Bound_Disp : list (list passivedouble)
}.

(** Modelled from the spec: the part of the driver state behind the
    coupling interface, the dimension and the markers by index. *)
Record Mesh : Type := {
  nDim : nat;
  markers : list Marker
}.

Variable on_misuse : Misuse.

(** Modelled from the spec: [GetNumberVerticesMarker] (declared on line 177,
    its body is missing), the "vertex count" of a marker; [None] when there
    is no such marker. *)
Definition GetNumberVerticesMarker (self : Mesh) (iMarker : nat) : option nat :=
  mk ← markers self !! iMarker; Some (length (vertex mk)).

(** Modelled from the spec: [IsAHaloNode] (declared on line 117, its body is
    missing), the halo flag of a vertex, "true iff not owned by this
    process"; [None] when there is no such marker or vertex. *)
Definition IsAHaloNode (self : Mesh) (iMarker iVertex : nat) : option bool :=
  mk ← markers self !! iMarker; v ← vertex mk !! iVertex; Some (halo v).

(** Modelled from the spec: [SetDisplacementsMarker] (declared on line
    282, its body is missing) stores [values], "(nVertex*nDim)", as the
    displacement of each vertex of the marker. [None] is a reported error:
    no such marker, a vector of another length, or a marker that is not
    deformable when misuse is reported. *)
Definition SetDisplacementsMarker (self : Mesh) (iMarker : nat)
    (values : list passivedouble) : option Mesh :=
  mk ← markers self !! iMarker;
  let nVertex := length (vertex mk) in
  if deformable mk then
    if decide (length values = nVertex * nDim self) then
      Some {| nDim := nDim self;
              markers :=
                <[iMarker := {| Marker_Tag := Marker_Tag mk;
                                deformable := deformable mk;
                                vertex := vertex mk;
                                Bound_Disp := chunks (nDim self) nVertex values |}]>
                  (markers self) |}
    else None
  else
    match on_misuse with
    | ignored => Some self
    | reported => None
    end.

(** Modelled from the spec: [GetDisplacementsMarker] (declared on line
    275, its body is missing) returns "the last locally known value" of
    every vertex of the marker, "(nVertex*nDim)". *)
Definition GetDisplacementsMarker (self : Mesh) (iMarker : nat)
  : option (list passivedouble) :=
  mk ← markers self !! iMarker; Some (concat (Bound_Disp mk)).

(** A marker the displacement calls are defined on, the field being "defined
    only for vertices on deformable markers": it exists and it is
    deformable. *)
Definition valid_marker (self : Mesh) (iMarker : nat) : Prop :=
  exists mk, markers self !! iMarker = Some mk /\ deformable mk = true.
End Coupling.

Arguments GetVertexNormal {passivedouble Driver} GetVertexNormal_body self iMarker iVertex unitNormal.
Arguments GetVertexUnitNormal {passivedouble Driver} GetVertexNormal_body self iMarker iVertex.
Arguments Build_Marker {passivedouble} _ _ _ _.
Arguments Build_Mesh {passivedouble} _ _.
Arguments Marker_Tag {passivedouble} _.
Arguments deformable {passivedouble} _.
Arguments vertex {passivedouble} _.
Arguments Bound_Disp {passivedouble} _.
Arguments nDim {passivedouble} _.
Arguments markers {passivedouble} _.
Arguments GetNumberVerticesMarker {passivedouble} self iMarker.
Arguments IsAHaloNode {passivedouble} self iMarker iVertex.
Arguments SetDisplacementsMarker {passivedouble} on_misuse self iMarker values.
Arguments GetDisplacementsMarker {passivedouble} self iMarker.
Arguments valid_marker {passivedouble} self iMarker.

(** *** Sample inputs *)

(** A two-dimensional mesh with one deformable marker of two vertices, the
    second a halo, and one marker that is not deformable; displacements are
    written as integers. *)
Definition sample_mesh : Mesh Z :=
  {| nDim := 2;
     markers :=
       [ {| Marker_Tag := "wing"; deformable := true;
            vertex := [ {| GetNode := 7; halo := false |};
                        {| GetNode := 9; halo := true |} ];
            Bound_Disp := [[0; 0]; [0; 0]]%Z |};
         {| Marker_Tag := "farfield"; deformable := false;
            vertex := [ {| GetNode := 3; halo := false |} ];
            Bound_Disp := [[0; 0]]%Z |} ] |}.

End CDeformationDriver.

(** * Properties of [main] *)

Module MainProperties.
Import SU2_CFD.

(** ** Runs in closed form *)

(** Expose the sequencing of a computation down to its calls. *)
Ltac proc_unfold :=
  unfold mbind, Proc_bind, mret, Proc_ret, emit;
  cbn -[instantiate_driver get_config_file_name to_ushort].

(** The cascade of [main] enters the arm [driver_selection] names and runs
    its body. *)
Lemma instantiate_driver_arms config_file_name config nZone nDim fsi :
  instantiate_driver config_file_name config nZone nDim fsi
  = match driver_selection config nZone fsi with
    | CGeneralDriver =>
        (if nZone >? 1
         then emit (cout multizone_error) ;; exit EXIT_FAILURE
         else mret tt) ;;
        new CGeneralDriver config_file_name nZone nDim
    | CHBDriver =>
        new CHBDriver config_file_name (to_ushort (GetnTimeInstances config)) nDim
    | CGeneralHBDriver =>
        new CGeneralHBDriver config_file_name
            (to_ushort (GetnTimeInstances config * nZone)) nDim
    | CFSIDriver => new CFSIDriver config_file_name nZone nDim
    | CFluidDriver => new CFluidDriver config_file_name nZone nDim
    end.
Proof.
  unfold instantiate_driver, driver_selection, guard.
  fold (single_zone_solver config).
  destruct (single_zone_solver config); [reflexivity|].
  destruct (bool_decide (GetUnsteady_Simulation config = HARMONIC_BALANCE) && (nZone =? 1));
    [reflexivity|].
  destruct (bool_decide (GetUnsteady_Simulation config = HARMONIC_BALANCE) && (nZone >? 1));
    [reflexivity|].
  destruct ((nZone =? 2) && fsi); reflexivity.
Qed.

Section Runs.
Variable env : Environment.
Variables (argc : Z) (argv : list string).

Lemma instantiate_driver_mismatch tr :
  mismatch env argc argv = true ->
  instantiate_driver (config_file_name argc argv) (config env argc argv)
    (nZone env argc argv) (nDim env argc argv) (fsi env argc argv) tr
  = (Exits EXIT_FAILURE, tr ++ [cout multizone_error]).
Proof.
  unfold mismatch. intros [Hkind Hzone]%andb_prop.
  rewrite instantiate_driver_arms. unfold driver_selection. cbn [guard].
  rewrite Hkind. cbn. rewrite Hzone. reflexivity.
Qed.

Lemma instantiate_driver_normal tr :
  mismatch env argc argv = false ->
  instantiate_driver (config_file_name argc argv) (config env argc argv)
    (nZone env argc argv) (nDim env argc argv) (fsi env argc argv) tr
  = (Returns (Some (selected_driver env argc argv)),
     tr ++ [new_CDriver (selected_driver env argc argv)]).
Proof.
  rewrite instantiate_driver_arms.
  unfold mismatch, selected_driver, count_argument, selected.
  unfold driver_selection. cbn [guard].
  intros Hm.
  destruct (single_zone_solver _); cbn in Hm.
  - cbn. rewrite Hm. reflexivity.
  - repeat (match goal with |- context [if ?b then _ else _] => destruct b end;
            try reflexivity).
Qed.

Lemma run_mismatch :
  mismatch env argc argv = true ->
  run env argc argv =
    (Exits EXIT_FAILURE,
     mpi_prologue env ++ [new_CConfig (config_file_name argc argv); cout multizone_error]).
Proof.
  intros Hm. unfold run, main, when_mpi, mpi_prologue.
  pose proof (fun tr => instantiate_driver_mismatch tr Hm) as Hi.
  unfold nZone, nDim, fsi, config, config_file_name in Hi.
  destruct (HAVE_MPI env); proc_unfold; rewrite Hi; reflexivity.
Qed.

Lemma run_normal :
  mismatch env argc argv = false ->
  run env argc argv =
    (Returns EXIT_SUCCESS,
     mpi_prologue env
     ++ [new_CConfig (config_file_name argc argv);
         new_CDriver (selected_driver env argc argv);
         delete_CConfig;
         StartSolver (selected_driver env argc argv);
         Postprocessing (selected_driver env argc argv);
         delete_CDriver (selected_driver env argc argv)]
     ++ mpi_epilogue env).
Proof.
  intros Hm. unfold run, main, when_mpi, mpi_prologue, mpi_epilogue.
  pose proof (fun tr => instantiate_driver_normal tr Hm) as Hi.
  unfold nZone, nDim, fsi, config, config_file_name in Hi.
  destruct (HAVE_MPI env); proc_unfold; rewrite Hi; reflexivity.
Qed.
End Runs.

(** ** The cascade *)

Lemma driver_selection_fires config nZone fsi :
  fires (driver_selection config nZone fsi) config nZone fsi.
Proof.
  unfold fires, driver_selection.
  destruct (guard CGeneralDriver config nZone fsi) eqn:H1;
    [|destruct (guard CHBDriver config nZone fsi) eqn:H2;
      [|destruct (guard CGeneralHBDriver config nZone fsi) eqn:H3;
        [|destruct (guard CFSIDriver config nZone fsi) eqn:H4]]];
    (split; [assumption || reflexivity|]);
    intros [] Hlt; cbn in Hlt; first [assumption | lia].
Qed.

Lemma fires_unique config nZone fsi cls cls' :
  fires cls config nZone fsi -> fires cls' config nZone fsi -> cls = cls'.
Proof.
  intros [Hg Hbefore] [Hg' Hbefore'].
  destruct (decide (arm_index cls < arm_index cls')%nat) as [Hlt|Hge].
  - rewrite (Hbefore' _ Hlt) in Hg. discriminate.
  - destruct (decide (arm_index cls' < arm_index cls)%nat) as [Hlt'|Hge'].
    + rewrite (Hbefore _ Hlt') in Hg'. discriminate.
    + destruct cls, cls'; cbn in Hge, Hge'; first [reflexivity | lia].
Qed.

Lemma constructed_run env argc argv :
  constructed (run env argc argv).2
  = if mismatch env argc argv then [] else [selected_driver env argc argv].
Proof.
  destruct (mismatch env argc argv) eqn:Hm.
  - rewrite run_mismatch by assumption. unfold mpi_prologue.
    destruct (HAVE_MPI env); reflexivity.
  - rewrite run_normal by assumption. unfold mpi_prologue, mpi_epilogue.
    destruct (HAVE_MPI env); reflexivity.
Qed.

Lemma driver_events_run env argc argv :
  driver_events (run env argc argv).2
  = if mismatch env argc argv then [] else driver_life (selected_driver env argc argv).
Proof.
  destruct (mismatch env argc argv) eqn:Hm.
  - rewrite run_mismatch by assumption. unfold mpi_prologue.
    destruct (HAVE_MPI env); reflexivity.
  - rewrite run_normal by assumption. unfold mpi_prologue, mpi_epilogue.
    destruct (HAVE_MPI env); reflexivity.
Qed.

(** C1. Whatever the solver kind, the unsteady mode, the zone count and the
    fluid-structure flag, exactly one arm of the cascade of [main] fires and
    it is the one [driver_selection] returns; the choice is a function of
    these four values alone; and a run evaluates the cascade once: it
    constructs the driver of the arm it entered and no other, or none at all
    when the arm it entered is the single-zone one and stops on the
    zone-count check. *)
Theorem driver_selection_exactly_one :
  (forall config nZone fsi,
      fires (driver_selection config nZone fsi) config nZone fsi
      /\ forall cls, fires cls config nZone fsi -> cls = driver_selection config nZone fsi)
  /\ (forall config config' nZone fsi,
         GetKind_Solver config = GetKind_Solver config' ->
         GetUnsteady_Simulation config = GetUnsteady_Simulation config' ->
         driver_selection config nZone fsi = driver_selection config' nZone fsi)
  /\ (forall env argc argv,
         constructed (run env argc argv).2
         = (if mismatch env argc argv then [] else [selected_driver env argc argv])
         /\ driver_class (selected_driver env argc argv)
            = driver_selection (config env argc argv) (nZone env argc argv)
                               (fsi env argc argv)
         /\ (mismatch env argc argv = true ->
             driver_selection (config env argc argv) (nZone env argc argv)
                              (fsi env argc argv) = CGeneralDriver)).
Proof.
  split; [|split].
  - intros config nZone fsi. split.
    + apply driver_selection_fires.
    + intros cls Hcls. eapply fires_unique; [exact Hcls|apply driver_selection_fires].
  - intros config config' nZone fsi Hkind Hunst.
    unfold driver_selection, guard, single_zone_solver.
    rewrite Hkind, Hunst. reflexivity.
  - intros env argc argv. split; [apply constructed_run|]. split; [reflexivity|].
    unfold mismatch, driver_selection. cbn [guard].
    intros [-> _]%andb_prop. reflexivity.
Qed.

(** The decision table on the sample inputs. *)
Example structural_steady_one_zone :
  driver_selection (sample_config FEM_ELASTICITY STEADY 1 false) 1 false = CGeneralDriver.
Proof. reflexivity. Qed.

Example generic_harmonic_balance_one_zone :
  driver_selection (sample_config EULER HARMONIC_BALANCE 3 false) 1 false = CHBDriver.
Proof. reflexivity. Qed.

Example generic_steady_two_zones_fsi :
  driver_selection (sample_config EULER STEADY 1 true) 2 true = CFSIDriver.
Proof. reflexivity. Qed.

Example generic_harmonic_balance_three_zones :
  run hb_three_zones_env 2 sample_argv
  = (Returns 0,
     let d := {| driver_class := CGeneralHBDriver; confFile := "case.cfg";
                 val_nZone := 15; val_nDim := 3 |} in
     [new_CConfig "case.cfg"; new_CDriver d; delete_CConfig;
      StartSolver d; Postprocessing d; delete_CDriver d]).
Proof. reflexivity. Qed.

Example harmonic_balance_zero_zones :
  driver_selection (sample_config EULER HARMONIC_BALANCE 3 false) 0 false = CFluidDriver.
Proof. reflexivity. Qed.

Example no_argument_reads_default_cfg :
  config_file_name 1 ["SU2_CFD"] = "default.cfg".
Proof. reflexivity. Qed.

(** ** The arms one by one *)

Lemma selected_CGeneralDriver env argc argv :
  single_zone_solver (config env argc argv) = true ->
  nZone env argc argv <= 1 ->
  run env argc argv
  = (Returns EXIT_SUCCESS,
     let d := {| driver_class := CGeneralDriver;
                 confFile := config_file_name argc argv;
                 val_nZone := nZone env argc argv;
                 val_nDim := nDim env argc argv |} in
     mpi_prologue env
     ++ [new_CConfig (config_file_name argc argv); new_CDriver d; delete_CConfig;
         StartSolver d; Postprocessing d; delete_CDriver d]
     ++ mpi_epilogue env).
Proof.
  intros Hkind Hzone.
  assert (Hm : mismatch env argc argv = false).
  { unfold mismatch. rewrite Hkind. cbn.
    destruct (Z.gtb_spec (nZone env argc argv) 1); [lia|reflexivity]. }
  rewrite run_normal by exact Hm. cbv zeta.
  unfold selected_driver, count_argument, selected, driver_selection. cbn [guard].
  rewrite Hkind. reflexivity.
Qed.

Lemma selected_CHBDriver env argc argv :
  single_zone_solver (config env argc argv) = false ->
  GetUnsteady_Simulation (config env argc argv) = HARMONIC_BALANCE ->
  nZone env argc argv = 1 ->
  constructed (run env argc argv).2
  = [{| driver_class := CHBDriver;
        confFile := config_file_name argc argv;
        val_nZone := to_ushort (GetnTimeInstances (config env argc argv));
        val_nDim := nDim env argc argv |}].
Proof.
  intros Hkind Hunst Hzone.
  rewrite constructed_run. unfold mismatch. rewrite Hkind. cbn.
  unfold selected_driver, count_argument, selected, driver_selection. cbn [guard].
  rewrite Hkind, Hunst, Hzone. reflexivity.
Qed.

Lemma selected_CFluidDriver env argc argv :
  single_zone_solver (config env argc argv) = false ->
  GetUnsteady_Simulation (config env argc argv) <> HARMONIC_BALANCE ->
  (nZone env argc argv =? 2) && fsi env argc argv = false ->
  constructed (run env argc argv).2
  = [{| driver_class := CFluidDriver;
        confFile := config_file_name argc argv;
        val_nZone := nZone env argc argv;
        val_nDim := nDim env argc argv |}].
Proof.
  intros Hkind Hunst Hfsi.
  rewrite constructed_run. unfold mismatch. rewrite Hkind. cbn.
  unfold selected_driver, count_argument, selected, driver_selection. cbn [guard].
  rewrite Hkind, Hfsi, (bool_decide_eq_false_2 _ Hunst). reflexivity.
Qed.

(** ** The fluid-structure arm *)

(** C2, as stated, fails: with two zones and the fluid-structure flag set, a
    harmonic-balance run of a solver that is not single-zone-only enters the
    multi-zone harmonic-balance arm, which is written before the
    fluid-structure one. *)
Lemma fsi_two_zones_not_always_CFSIDriver :
  nZone hb_fsi_env 2 sample_argv = 2
  /\ fsi hb_fsi_env 2 sample_argv = true
  /\ single_zone_solver (config hb_fsi_env 2 sample_argv) = false
  /\ constructed (run hb_fsi_env 2 sample_argv).2
     = [{| driver_class := CGeneralHBDriver; confFile := "case.cfg";
           val_nZone := 6; val_nDim := 3 |}]
  /\ selected hb_fsi_env 2 sample_argv <> CFSIDriver.
Proof. repeat split; try reflexivity. discriminate. Qed.

(** C2, amended. With exactly two zones, the fluid-structure flag set, a
    solver kind that is not single-zone-only and an unsteady mode other than
    harmonic balance, [main] enters the fluid-structure arm and constructs a
    CFSIDriver from the file name, the zone count and the dimension. *)
Theorem fsi_two_zones_selects_CFSIDriver env argc argv :
  single_zone_solver (config env argc argv) = false ->
  GetUnsteady_Simulation (config env argc argv) <> HARMONIC_BALANCE ->
  nZone env argc argv = 2 ->
  fsi env argc argv = true ->
  selected env argc argv = CFSIDriver
  /\ constructed (run env argc argv).2
     = [{| driver_class := CFSIDriver; confFile := config_file_name argc argv;
           val_nZone := 2; val_nDim := nDim env argc argv |}].
Proof.
  intros Hkind Hunst Hzone Hfsi.
  assert (Hsel : selected env argc argv = CFSIDriver).
  { unfold selected, driver_selection, guard.
    rewrite Hkind, Hzone, Hfsi.
    rewrite (bool_decide_eq_false_2 _ Hunst). reflexivity. }
  split; [exact Hsel|].
  rewrite constructed_run. unfold mismatch. rewrite Hkind. cbn.
  unfold selected_driver, count_argument. rewrite Hsel, Hzone. reflexivity.
Qed.

Lemma fsi_two_zones_selects_CFSIDriver_witness :
  single_zone_solver (config fsi_env 2 sample_argv) = false
  /\ GetUnsteady_Simulation (config fsi_env 2 sample_argv) <> HARMONIC_BALANCE
  /\ nZone fsi_env 2 sample_argv = 2
  /\ fsi fsi_env 2 sample_argv = true
  /\ selected fsi_env 2 sample_argv = CFSIDriver
  /\ constructed (run fsi_env 2 sample_argv).2
     = [{| driver_class := CFSIDriver; confFile := "case.cfg";
           val_nZone := 2; val_nDim := 3 |}].
Proof.
  split; [reflexivity|]. split; [discriminate|].
  split; [reflexivity|]. split; [reflexivity|].
  apply (fsi_two_zones_selects_CFSIDriver fsi_env 2 sample_argv);
    [reflexivity | discriminate | reflexivity | reflexivity].
Defined.

(** ** The zone-count check *)

(** C3. When the solver kind is one of the single-zone-only kinds and the
    zone count exceeds 1, the process leaves through [exit(EXIT_FAILURE)]
    right after printing the error: its trace holds the construction of the
    CConfig object and the message, and no driver event at all, neither a
    construction nor a call of [StartSolver] or [Postprocessing]. *)
Theorem single_zone_solver_multizone_aborts env argc argv :
  single_zone_solver (config env argc argv) = true ->
  nZone env argc argv > 1 ->
  run env argc argv
  = (Exits EXIT_FAILURE,
     mpi_prologue env ++ [new_CConfig (config_file_name argc argv); cout multizone_error])
  /\ driver_events (run env argc argv).2 = [].
Proof.
  intros Hkind Hzone.
  assert (Hm : mismatch env argc argv = true).
  { unfold mismatch. rewrite Hkind. cbn. apply Z.gtb_gt. lia. }
  split; [apply run_mismatch; exact Hm|].
  rewrite driver_events_run, Hm. reflexivity.
Qed.

Lemma single_zone_solver_multizone_aborts_witness :
  single_zone_solver (config structural_two_zones_env 2 sample_argv) = true
  /\ nZone structural_two_zones_env 2 sample_argv > 1
  /\ run structural_two_zones_env 2 sample_argv
     = (Exits 1, [MPI_Init; MPI_Buffer_attach; new_CConfig "case.cfg";
                  cout multizone_error])
  /\ driver_events (run structural_two_zones_env 2 sample_argv).2 = [].
Proof.
  split; [reflexivity|]. split; [reflexivity|].
  apply (single_zone_solver_multizone_aborts structural_two_zones_env 2 sample_argv);
    reflexivity.
Defined.

(** ** The multi-zone harmonic-balance arm *)

(** C4, as stated, fails twice. A single-zone-only solver kind in
    harmonic-balance mode on three zones enters the first arm and stops on
    the zone-count check, so no multi-zone harmonic-balance driver is
    selected. And the count handed to the constructor is held in an
    [unsigned short]: 32768 time instances on each of two zones make the
    driver receive 0, not 65536. *)
Lemma multizone_harmonic_balance_counterexample :
  (GetUnsteady_Simulation (config structural_hb_env 2 sample_argv) = HARMONIC_BALANCE
   /\ nZone structural_hb_env 2 sample_argv = 3
   /\ selected structural_hb_env 2 sample_argv = CGeneralDriver
   /\ constructed (run structural_hb_env 2 sample_argv).2 = [])
  /\ (GetUnsteady_Simulation (config hb_many_instances_env 2 sample_argv) = HARMONIC_BALANCE
      /\ nZone hb_many_instances_env 2 sample_argv = 2
      /\ GetnTimeInstances (config hb_many_instances_env 2 sample_argv) = 32768
      /\ constructed (run hb_many_instances_env 2 sample_argv).2
         = [{| driver_class := CGeneralHBDriver; confFile := "case.cfg";
               val_nZone := 0; val_nDim := 3 |}]
      /\ 32768 * 2 <> 0).
Proof. repeat split; try reflexivity. discriminate. Qed.

(** C4, amended. In harmonic-balance mode with more than one zone and a
    solver kind that is not single-zone-only, [main] enters the multi-zone
    harmonic-balance arm and constructs a CGeneralHBDriver whose
    time-instance count is the per-zone count times the number of geometric
    zones reduced modulo 2^16, hence that very product whenever it fits in
    the 16 bits of the variable that holds it. *)
Theorem multizone_harmonic_balance_count env argc argv :
  single_zone_solver (config env argc argv) = false ->
  GetUnsteady_Simulation (config env argc argv) = HARMONIC_BALANCE ->
  nZone env argc argv > 1 ->
  selected env argc argv = CGeneralHBDriver
  /\ constructed (run env argc argv).2
     = [{| driver_class := CGeneralHBDriver;
           confFile := config_file_name argc argv;
           val_nZone := (GetnTimeInstances (config env argc argv) * nZone env argc argv)
                          `mod` 2 ^ 16;
           val_nDim := nDim env argc argv |}]
  /\ (0 <= GetnTimeInstances (config env argc argv) * nZone env argc argv < 2 ^ 16 ->
      count_argument env argc argv
      = GetnTimeInstances (config env argc argv) * nZone env argc argv).
Proof.
  intros Hkind Hunst Hzone.
  assert (Hsel : selected env argc argv = CGeneralHBDriver).
  { unfold selected, driver_selection, guard.
    rewrite Hkind, Hunst. cbn.
    destruct (Z.eqb_spec (nZone env argc argv) 1) as [Heq|_]; [lia|].
    destruct (Z.gtb_spec (nZone env argc argv) 1) as [_|Hle]; [reflexivity|lia]. }
  split; [exact Hsel|]. split.
  - rewrite constructed_run. unfold mismatch. rewrite Hkind. cbn.
    unfold selected_driver, count_argument. rewrite Hsel. reflexivity.
  - intros Hfits. unfold count_argument. rewrite Hsel.
    unfold to_ushort, USHRT_WIDTH. apply Z.mod_small. exact Hfits.
Qed.

Lemma multizone_harmonic_balance_count_witness :
  single_zone_solver (config hb_three_zones_env 2 sample_argv) = false
  /\ GetUnsteady_Simulation (config hb_three_zones_env 2 sample_argv) = HARMONIC_BALANCE
  /\ nZone hb_three_zones_env 2 sample_argv > 1
  /\ selected hb_three_zones_env 2 sample_argv = CGeneralHBDriver
  /\ constructed (run hb_three_zones_env 2 sample_argv).2
     = [{| driver_class := CGeneralHBDriver; confFile := "case.cfg";
           val_nZone := (5 * 3) `mod` 2 ^ 16; val_nDim := 3 |}]
  /\ (0 <= 5 * 3 < 2 ^ 16 -> count_argument hb_three_zones_env 2 sample_argv = 5 * 3).
Proof.
  split; [reflexivity|]. split; [reflexivity|]. split; [reflexivity|].
  apply (multizone_harmonic_balance_count hb_three_zones_env 2 sample_argv);
    reflexivity.
Defined.

(** ** Exit status *)

(** C5. A run of [main] ends in one of two ways. Without a zone-count
    mismatch it returns EXIT_SUCCESS, which is 0, and the fatal message was
    never printed. With a mismatch the process leaves through
    [exit(EXIT_FAILURE)], which is not 0, and the fatal message is the last
    thing the process did: nothing runs after the fatal error, and no run
    that raised it returns normally. *)
Theorem exit_status env argc argv :
  (run env argc argv).1
  = (if mismatch env argc argv then Exits EXIT_FAILURE else Returns EXIT_SUCCESS)
  /\ EXIT_SUCCESS = 0
  /\ EXIT_FAILURE <> 0
  /\ (if mismatch env argc argv
      then last (run env argc argv).2 = Some (cout multizone_error)
      else cout multizone_error ∉ (run env argc argv).2).
Proof.
  split; [|split; [reflexivity|split; [discriminate|]]].
  - destruct (mismatch env argc argv) eqn:Hm.
    + rewrite run_mismatch by assumption. reflexivity.
    + rewrite run_normal by assumption. reflexivity.
  - destruct (mismatch env argc argv) eqn:Hm.
    + rewrite run_mismatch by assumption. unfold mpi_prologue.
      destruct (HAVE_MPI env); reflexivity.
    + rewrite run_normal by assumption. unfold mpi_prologue, mpi_epilogue.
      destruct (HAVE_MPI env); cbn;
        rewrite !elem_of_cons, elem_of_nil; intros Hin;
        repeat (destruct Hin as [Hin|Hin]; [discriminate Hin|]); exact Hin.
Qed.

(** ** The life of the driver object *)

(** C8. In every run of [main], each driver object the run constructs goes
    through exactly [new], [StartSolver], [Postprocessing], [delete], in that
    order and once each, and these are all the driver events of the run: the
    object is destroyed once, after [Postprocessing], and nothing is called
    on it afterwards. A run constructs the selected driver, or none when it
    stops on the zone-count check, and it never calls through a null
    pointer. *)
Theorem driver_started_postprocessed_deleted env argc argv :
  driver_events (run env argc argv).2
  = (constructed (run env argc argv).2 ≫= driver_life)
  /\ constructed (run env argc argv).2
     = (if mismatch env argc argv then [] else [selected_driver env argc argv])
  /\ (run env argc argv).1
     = (if mismatch env argc argv then Exits EXIT_FAILURE else Returns EXIT_SUCCESS).
Proof.
  rewrite driver_events_run, constructed_run.
  destruct (mismatch env argc argv) eqn:Hm.
  - rewrite run_mismatch by assumption. repeat split.
  - rewrite run_normal by assumption. repeat split.
Qed.

(** ** The CConfig object *)

(** C10. In a run that gets past the zone-count check, the trace splits at
    the deletion of the CConfig object: no driver method is called before
    it, [StartSolver] is called after it, and nothing after it concerns the
    CConfig object; a run that stops on the check calls no driver method at
    all. Every driver a run constructs was built from the configuration file
    name, the zone or time-instance count and the dimension, which is all a
    CDriver object holds. So two runs that construct the same driver show
    the same driver events, however their CConfig objects differ. *)
Theorem config_deleted_before_StartSolver :
  (forall env argc argv,
      if mismatch env argc argv
      then Forall (fun e => driver_method e = false) (run env argc argv).2
      else exists pre post,
          (run env argc argv).2 = pre ++ delete_CConfig :: post
          /\ Forall (fun e => driver_method e = false) pre
          /\ StartSolver (selected_driver env argc argv) ∈ post
          /\ Forall (fun e => config_event e = false) post)
  /\ (forall env argc argv d,
         d ∈ constructed (run env argc argv).2 ->
         confFile d = config_file_name argc argv
         /\ val_nZone d = count_argument env argc argv
         /\ val_nDim d = nDim env argc argv)
  /\ (forall env argc argv env' argc' argv',
         constructed (run env argc argv).2 = constructed (run env' argc' argv').2 ->
         driver_events (run env argc argv).2 = driver_events (run env' argc' argv').2).
Proof.
  split; [|split].
  - intros env argc argv. destruct (mismatch env argc argv) eqn:Hm.
    + rewrite run_mismatch by assumption. unfold mpi_prologue.
      destruct (HAVE_MPI env); repeat constructor.
    + rewrite run_normal by assumption.
      exists (mpi_prologue env
              ++ [new_CConfig (config_file_name argc argv);
                  new_CDriver (selected_driver env argc argv)]),
             ([StartSolver (selected_driver env argc argv);
               Postprocessing (selected_driver env argc argv);
               delete_CDriver (selected_driver env argc argv)]
              ++ mpi_epilogue env).
      split; [rewrite <- app_assoc; reflexivity|].
      unfold mpi_prologue, mpi_epilogue.
      destruct (HAVE_MPI env); cbn; (split; [repeat constructor|]);
        (split; [apply elem_of_cons; left; reflexivity|repeat constructor]).
  - intros env argc argv d. rewrite constructed_run.
    destruct (mismatch env argc argv).
    + intros Hin. apply elem_of_nil in Hin. destruct Hin.
    + intros ->%list_elem_of_singleton. repeat split.
  - intros env argc argv env' argc' argv'.
    rewrite !driver_events_run, !constructed_run.
    destruct (mismatch env argc argv), (mismatch env' argc' argv');
      intros Heq; first [reflexivity | discriminate Heq | idtac].
    congruence.
Qed.

End MainProperties.

(** * Properties of the deformation driver interface *)

Module DeformationProperties.
Import CDeformationDriver.

Local Open Scope nat_scope.

(** ** Normals *)

(** C9. [GetVertexUnitNormal(m, v)] is [GetVertexNormal(m, v, true)], and a
    call of [GetVertexNormal] that leaves out [unitNormal] is the call with
    [false]: it returns what the body computes for the normal that is not
    normalised. *)
Theorem GetVertexUnitNormal_GetVertexNormal {passivedouble Driver : Type}
    (body : Driver -> nat -> nat -> bool -> list passivedouble)
    (self : Driver) (iMarker iVertex : nat) :
  GetVertexUnitNormal body self iMarker iVertex
  = GetVertexNormal body self iMarker iVertex (Some true)
  /\ GetVertexNormal body self iMarker iVertex None
     = GetVertexNormal body self iMarker iVertex (Some false)
  /\ GetVertexNormal body self iMarker iVertex None = body self iMarker iVertex false
  /\ GetVertexUnitNormal body self iMarker iVertex = body self iMarker iVertex true.
Proof. repeat split. Qed.

(** ** Displacements *)

Lemma concat_chunks {A} (n k : nat) (l : list A) :
  length l = k * n -> concat (chunks n k l) = l.
Proof.
  revert l. induction k as [|k IH]; intros l Hlen; cbn.
  - symmetry. apply nil_length_inv. exact Hlen.
  - rewrite IH.
    + apply take_drop.
    + rewrite length_drop. lia.
Qed.

Lemma length_chunks {A} (n k : nat) (l : list A) : length (chunks n k l) = k.
Proof. revert l. induction k as [|k IH]; intros l; cbn; [|rewrite IH]; reflexivity. Qed.

Section RoundTrip.
Context {passivedouble : Type}.
Variable on_misuse : Misuse.
Variables (self : Mesh passivedouble) (iMarker : nat).
Variable values : list passivedouble.

(** What a write on a valid marker with a vector of the right length
    leaves behind. *)
Lemma Set_then_Get mk :
  markers self !! iMarker = Some mk ->
  deformable mk = true ->
  length values = length (vertex mk) * nDim self ->
  exists self',
    SetDisplacementsMarker on_misuse self iMarker values = Some self'
    /\ nDim self' = nDim self
    /\ (vertex <$> markers self' !! iMarker) = Some (vertex mk)
    /\ GetDisplacementsMarker self' iMarker = Some values.
Proof.
  intros Hmk Hdef Hlen.
  unfold SetDisplacementsMarker. rewrite Hmk. cbn. rewrite Hdef.
  rewrite decide_True by exact Hlen.
  eexists. split; [reflexivity|]. split; [reflexivity|].
  assert (Hlt : iMarker < length (markers self))
    by (eapply lookup_lt_Some; exact Hmk).
  unfold GetDisplacementsMarker. cbn.
  rewrite list_lookup_insert_eq by exact Hlt. cbn.
  split; [reflexivity|].
  rewrite concat_chunks by exact Hlen. reflexivity.
Qed.
End RoundTrip.

(** C7. On a valid marker, that is one that exists and is deformable, a
    write of a vector of length nVertex*nDim succeeds, and the read that
    follows it with no [Update] in between returns a vector that holds, for
    every owned (non-halo) vertex of the marker and every dimension, the
    component that was written. This holds whether a write on a marker that
    is not deformable is ignored or reported. *)
Theorem displacements_round_trip {passivedouble : Type} (on_misuse : Misuse)
    (self : Mesh passivedouble) (iMarker nVertex : nat)
    (values : list passivedouble) :
  valid_marker self iMarker ->
  GetNumberVerticesMarker self iMarker = Some nVertex ->
  length values = nVertex * nDim self ->
  exists self' result,
    SetDisplacementsMarker on_misuse self iMarker values = Some self'
    /\ GetDisplacementsMarker self' iMarker = Some result
    /\ length result = nVertex * nDim self
    /\ forall iVertex iDim,
         IsAHaloNode self' iMarker iVertex = Some false ->
         iDim < nDim self ->
         exists x, values !! (iVertex * nDim self + iDim) = Some x
                   /\ result !! (iVertex * nDim self + iDim) = Some x.
Proof.
  intros (mk & Hmk & Hdef) Hn Hlen.
  unfold GetNumberVerticesMarker in Hn. rewrite Hmk in Hn. cbn in Hn.
  injection Hn as <-.
  destruct (Set_then_Get on_misuse self iMarker values mk Hmk Hdef Hlen)
    as (self' & Hset & Hdim & Hvertex & Hget).
  exists self', values. split; [exact Hset|]. split; [exact Hget|].
  split; [exact Hlen|].
  intros iVertex iDim Hhalo HiDim.
  assert (Hin : iVertex < length (vertex mk)).
  { unfold IsAHaloNode in Hhalo.
    destruct (markers self' !! iMarker) as [mk'|]; [|discriminate].
    cbn in Hvertex, Hhalo. injection Hvertex as Hvertex. rewrite Hvertex in Hhalo.
    destruct (vertex mk !! iVertex) as [v|] eqn:Hv; [|discriminate].
    eapply lookup_lt_Some. exact Hv. }
  destruct (lookup_lt_is_Some_2 values (iVertex * nDim self + iDim)) as [x Hx].
  - rewrite Hlen. nia.
  - exists x. split; exact Hx.
Qed.

Lemma displacements_round_trip_witness :
  valid_marker sample_mesh 0
  /\ GetNumberVerticesMarker sample_mesh 0 = Some 2
  /\ length [10; 20; 30; 40]%Z = 2 * nDim sample_mesh
  /\ exists self' result,
      SetDisplacementsMarker reported sample_mesh 0 [10; 20; 30; 40]%Z = Some self'
      /\ GetDisplacementsMarker self' 0 = Some result
      /\ length result = 2 * nDim sample_mesh
      /\ forall iVertex iDim,
           IsAHaloNode self' 0 iVertex = Some false ->
           iDim < nDim sample_mesh ->
           exists x, [10; 20; 30; 40]%Z !! (iVertex * nDim sample_mesh + iDim) = Some x
                     /\ result !! (iVertex * nDim sample_mesh + iDim) = Some x.
Proof.
  split; [eexists; split; reflexivity|].
  split; [reflexivity|]. split; [reflexivity|].
  apply (displacements_round_trip reported sample_mesh 0 2 [10; 20; 30; 40]%Z).
  - eexists; split; reflexivity.
  - reflexivity.
  - reflexivity.
Defined.

(** The sample mesh: the owned vertex reads back what was written, and a
    write on the marker that is not deformable is refused or changes
    nothing. *)
Example sample_round_trip :
  (SetDisplacementsMarker reported sample_mesh 0 [10; 20; 30; 40]%Z
     ≫= fun self' => GetDisplacementsMarker self' 0)
  = Some [10; 20; 30; 40]%Z.
Proof. reflexivity. Qed.

Example sample_write_not_deformable :
  SetDisplacementsMarker reported sample_mesh 1 [10; 20]%Z = None
  /\ (SetDisplacementsMarker ignored sample_mesh 1 [10; 20]%Z
        ≫= fun self' => GetDisplacementsMarker self' 1) = Some [0; 0]%Z.
Proof. split; reflexivity. Qed.

End DeformationProperties.

(** * More properties of [main] *)

Module MainCoverage.
Import SU2_CFD MainProperties.

(** Non-membership in an explicit list of events. *)
Ltac not_in_trace :=
  rewrite ?elem_of_app, ?elem_of_cons, ?elem_of_nil;
  intros Hin;
  repeat (destruct Hin as [Hin|Hin]; [discriminate Hin|]);
  exact Hin.

(** A run past the zone-count check, seen through its driver. *)
Lemma normal_run_of_driver env argc argv d :
  mismatch env argc argv = false ->
  selected_driver env argc argv = d ->
  (run env argc argv).1 = Returns EXIT_SUCCESS
  /\ driver_events (run env argc argv).2 = driver_life d
  /\ cout multizone_error ∉ (run env argc argv).2.
Proof.
  intros Hm <-. split; [|split].
  - rewrite run_normal by exact Hm. reflexivity.
  - rewrite driver_events_run, Hm. reflexivity.
  - rewrite run_normal by exact Hm. unfold mpi_prologue, mpi_epilogue.
    destruct (HAVE_MPI env); cbn; not_in_trace.
Qed.

(** ** The configuration file *)

(** X1. When the file name fits the buffer of line 42, that is when it is
    shorter than MAX_STRING_SIZE, a run parses exactly one configuration file
    and hands its name to the driver it constructs: the first command-line
    argument when there is exactly one ([argc = 2]), and default.cfg in every
    other case, whether no argument was given or more than one. *)
Theorem config_file_of_command_line (MAX_STRING_SIZE : Z) env argc argv f :
  (argc <> 2 /\ f = "default.cfg") \/ (argc = 2 /\ argv !! 1%nat = Some f) ->
  Z.of_nat (String.length f) < MAX_STRING_SIZE ->
  strcpy_config_file_name MAX_STRING_SIZE argc argv = Some f
  /\ program MAX_STRING_SIZE env argc argv = run env argc argv
  /\ config_files (program MAX_STRING_SIZE env argc argv).2 = [f]
  /\ Forall (fun d => confFile d = f)
            (constructed (program MAX_STRING_SIZE env argc argv).2).
Proof.
  intros Hname Hfits.
  assert (Hf : config_file_name argc argv = f).
  { unfold config_file_name, get_config_file_name.
    destruct Hname as [[Hargc ->]|[-> Hf]].
    - destruct (Z.eqb_spec argc 2); [contradiction|reflexivity].
    - cbn. rewrite Hf. reflexivity. }
  assert (Hcopy : strcpy_config_file_name MAX_STRING_SIZE argc argv = Some f).
  { unfold strcpy_config_file_name, strcpy_fits.
    unfold config_file_name, get_config_file_name in Hf. rewrite Hf.
    destruct (Z.ltb_spec (Z.of_nat (String.length f)) MAX_STRING_SIZE);
      [reflexivity|lia]. }
  split; [exact Hcopy|].
  unfold program. rewrite Hcopy. split; [reflexivity|].
  rewrite constructed_run, <- Hf.
  destruct (mismatch env argc argv) eqn:Hm.
  - rewrite run_mismatch by exact Hm. unfold mpi_prologue.
    destruct (HAVE_MPI env); split; first [reflexivity | constructor].
  - rewrite run_normal by exact Hm. unfold mpi_prologue, mpi_epilogue.
    destruct (HAVE_MPI env); split; first [reflexivity | repeat constructor].
Qed.

Lemma config_file_of_command_line_witness :
  ((2 <> 2 /\ "case.cfg" = "default.cfg")
   \/ (2 = 2 /\ sample_argv !! 1%nat = Some "case.cfg"))
  /\ Z.of_nat (String.length "case.cfg") < 200
  /\ strcpy_config_file_name 200 2 sample_argv = Some "case.cfg"
  /\ program 200 fsi_env 2 sample_argv = run fsi_env 2 sample_argv
  /\ config_files (program 200 fsi_env 2 sample_argv).2 = ["case.cfg"]
  /\ Forall (fun d => confFile d = "case.cfg")
            (constructed (program 200 fsi_env 2 sample_argv).2).
Proof.
  split; [right; split; reflexivity|]. split; [reflexivity|].
  apply (config_file_of_command_line 200 fsi_env 2 sample_argv "case.cfg");
    [right; split; reflexivity|reflexivity].
Defined.

(** With more than one argument the run reads default.cfg; a name of eight
    characters does not fit a buffer of eight. *)
Example extra_argument_program_reads_default_cfg :
  config_files (program 200 fsi_env 3 sample_argv_extra).2 = ["default.cfg"].
Proof. reflexivity. Qed.

Example name_past_the_buffer :
  program 8 structural_two_zones_env 2 sample_argv
  = (Undefined, [MPI_Init; MPI_Buffer_attach]).
Proof. reflexivity. Qed.

Example extra_argument_reads_default_cfg :
  config_files (run fsi_env 3 sample_argv_extra).2 = ["default.cfg"].
Proof. reflexivity. Qed.

(** ** The arms the claims leave out *)

(** X2. In harmonic-balance mode on exactly one zone, with a solver kind that
    is not single-zone-only, the run completes with EXIT_SUCCESS and its
    driver is a CHBDriver whose second constructor argument is not the zone
    count but the number of time instances, as an [unsigned short]: the
    configured number itself when it is below 65536. *)
Theorem harmonic_balance_single_zone_run env argc argv :
  single_zone_solver (config env argc argv) = false ->
  GetUnsteady_Simulation (config env argc argv) = HARMONIC_BALANCE ->
  nZone env argc argv = 1 ->
  (run env argc argv).1 = Returns EXIT_SUCCESS
  /\ driver_events (run env argc argv).2
     = driver_life {| driver_class := CHBDriver;
                      confFile := config_file_name argc argv;
                      val_nZone := GetnTimeInstances (config env argc argv) `mod` 2 ^ 16;
                      val_nDim := nDim env argc argv |}
  /\ (0 <= GetnTimeInstances (config env argc argv) < 2 ^ 16 ->
      GetnTimeInstances (config env argc argv) `mod` 2 ^ 16
      = GetnTimeInstances (config env argc argv)).
Proof.
  intros Hkind Hunst Hzone.
  destruct (normal_run_of_driver env argc argv
              {| driver_class := CHBDriver;
                 confFile := config_file_name argc argv;
                 val_nZone := GetnTimeInstances (config env argc argv) `mod` 2 ^ 16;
                 val_nDim := nDim env argc argv |}) as (Hret & Hev & _).
  - unfold mismatch. rewrite Hkind. reflexivity.
  - unfold selected_driver, count_argument, selected, driver_selection. cbn [guard].
    rewrite Hkind, Hunst, Hzone. reflexivity.
  - split; [exact Hret|]. split; [exact Hev|].
    intros Hfits. apply Z.mod_small. exact Hfits.
Qed.

Lemma harmonic_balance_single_zone_run_witness :
  single_zone_solver (config hb_single_zone_env 2 sample_argv) = false
  /\ GetUnsteady_Simulation (config hb_single_zone_env 2 sample_argv) = HARMONIC_BALANCE
  /\ nZone hb_single_zone_env 2 sample_argv = 1
  /\ (run hb_single_zone_env 2 sample_argv).1 = Returns EXIT_SUCCESS
  /\ driver_events (run hb_single_zone_env 2 sample_argv).2
     = driver_life {| driver_class := CHBDriver; confFile := "case.cfg";
                      val_nZone := 7 `mod` 2 ^ 16; val_nDim := 2 |}
  /\ (0 <= 7 < 2 ^ 16 -> 7 `mod` 2 ^ 16 = 7).
Proof.
  split; [reflexivity|]. split; [reflexivity|]. split; [reflexivity|].
  apply (harmonic_balance_single_zone_run hb_single_zone_env 2 sample_argv);
    reflexivity.
Defined.

(** X3. With a single-zone-only solver kind and at most one zone (a mesh
    that reports no zone included), the run completes with EXIT_SUCCESS
    through a CGeneralDriver built from the file name, the zone count and
    the dimension, and the multizone error is never printed. Neither the
    unsteady mode nor the fluid-structure flag matters: a harmonic-balance
    or fluid-structure request is not looked at. *)
Theorem single_zone_solver_one_zone_run env argc argv :
  single_zone_solver (config env argc argv) = true ->
  nZone env argc argv <= 1 ->
  (run env argc argv).1 = Returns EXIT_SUCCESS
  /\ driver_events (run env argc argv).2
     = driver_life {| driver_class := CGeneralDriver;
                      confFile := config_file_name argc argv;
                      val_nZone := nZone env argc argv;
                      val_nDim := nDim env argc argv |}
  /\ cout multizone_error ∉ (run env argc argv).2.
Proof.
  intros Hkind Hzone.
  apply normal_run_of_driver.
  - unfold mismatch. rewrite Hkind. cbn.
    destruct (Z.gtb_spec (nZone env argc argv) 1); [lia|reflexivity].
  - unfold selected_driver, count_argument, selected, driver_selection. cbn [guard].
    rewrite Hkind. reflexivity.
Qed.

Lemma single_zone_solver_one_zone_run_witness :
  single_zone_solver (config heat_one_zone_env 2 sample_argv) = true
  /\ nZone heat_one_zone_env 2 sample_argv <= 1
  /\ (run heat_one_zone_env 2 sample_argv).1 = Returns EXIT_SUCCESS
  /\ driver_events (run heat_one_zone_env 2 sample_argv).2
     = driver_life {| driver_class := CGeneralDriver; confFile := "case.cfg";
                      val_nZone := 1; val_nDim := 3 |}
  /\ cout multizone_error ∉ (run heat_one_zone_env 2 sample_argv).2.
Proof.
  split; [reflexivity|]. split; [discriminate|].
  apply (single_zone_solver_one_zone_run heat_one_zone_env 2 sample_argv);
    [reflexivity|discriminate].
Defined.

(** X7. The fluid-structure flag only counts on exactly two zones. With the
    flag set on any other zone count, outside harmonic-balance mode and with
    a solver kind that is not single-zone-only, no error is raised: the run
    completes with EXIT_SUCCESS through the default CFluidDriver, built from
    the file name, the zone count and the dimension. *)
Theorem fsi_flag_without_two_zones_run env argc argv :
  single_zone_solver (config env argc argv) = false ->
  GetUnsteady_Simulation (config env argc argv) <> HARMONIC_BALANCE ->
  fsi env argc argv = true ->
  nZone env argc argv <> 2 ->
  (run env argc argv).1 = Returns EXIT_SUCCESS
  /\ driver_events (run env argc argv).2
     = driver_life {| driver_class := CFluidDriver;
                      confFile := config_file_name argc argv;
                      val_nZone := nZone env argc argv;
                      val_nDim := nDim env argc argv |}
  /\ cout multizone_error ∉ (run env argc argv).2.
Proof.
  intros Hkind Hunst Hfsi Hzone.
  apply normal_run_of_driver.
  - unfold mismatch. rewrite Hkind. reflexivity.
  - unfold selected_driver, count_argument, selected, driver_selection. cbn [guard].
    rewrite Hkind, (bool_decide_eq_false_2 _ Hunst).
    rewrite (proj2 (Z.eqb_neq _ _) Hzone). reflexivity.
Qed.

Lemma fsi_flag_without_two_zones_run_witness :
  single_zone_solver (config fsi_three_zones_env 2 sample_argv) = false
  /\ GetUnsteady_Simulation (config fsi_three_zones_env 2 sample_argv) <> HARMONIC_BALANCE
  /\ fsi fsi_three_zones_env 2 sample_argv = true
  /\ nZone fsi_three_zones_env 2 sample_argv <> 2
  /\ (run fsi_three_zones_env 2 sample_argv).1 = Returns EXIT_SUCCESS
  /\ driver_events (run fsi_three_zones_env 2 sample_argv).2
     = driver_life {| driver_class := CFluidDriver; confFile := "case.cfg";
                      val_nZone := 3; val_nDim := 3 |}
  /\ cout multizone_error ∉ (run fsi_three_zones_env 2 sample_argv).2.
Proof.
  split; [reflexivity|]. split; [discriminate|].
  split; [reflexivity|]. split; [discriminate|].
  apply (fsi_flag_without_two_zones_run fsi_three_zones_env 2 sample_argv);
    [reflexivity|discriminate|reflexivity|discriminate].
Defined.

(** X8. A harmonic-balance run whose mesh reports no zone enters neither
    harmonic-balance arm, both of which want at least one zone: with a
    solver kind that is not single-zone-only it completes with EXIT_SUCCESS
    through the default CFluidDriver, built for zero zones, whatever the
    fluid-structure flag. *)
Theorem harmonic_balance_zero_zones_run env argc argv :
  single_zone_solver (config env argc argv) = false ->
  GetUnsteady_Simulation (config env argc argv) = HARMONIC_BALANCE ->
  nZone env argc argv = 0 ->
  (run env argc argv).1 = Returns EXIT_SUCCESS
  /\ driver_events (run env argc argv).2
     = driver_life {| driver_class := CFluidDriver;
                      confFile := config_file_name argc argv;
                      val_nZone := 0;
                      val_nDim := nDim env argc argv |}.
Proof.
  intros Hkind Hunst Hzone.
  destruct (normal_run_of_driver env argc argv
              {| driver_class := CFluidDriver;
                 confFile := config_file_name argc argv;
                 val_nZone := 0;
                 val_nDim := nDim env argc argv |}) as (Hret & Hev & _).
  - unfold mismatch. rewrite Hkind. reflexivity.
  - unfold selected_driver, count_argument, selected, driver_selection. cbn [guard].
    rewrite Hkind, Hunst, Hzone. reflexivity.
  - split; [exact Hret|exact Hev].
Qed.

Lemma harmonic_balance_zero_zones_run_witness :
  single_zone_solver (config hb_zero_zones_env 2 sample_argv) = false
  /\ GetUnsteady_Simulation (config hb_zero_zones_env 2 sample_argv) = HARMONIC_BALANCE
  /\ nZone hb_zero_zones_env 2 sample_argv = 0
  /\ (run hb_zero_zones_env 2 sample_argv).1 = Returns EXIT_SUCCESS
  /\ driver_events (run hb_zero_zones_env 2 sample_argv).2
     = driver_life {| driver_class := CFluidDriver; confFile := "case.cfg";
                      val_nZone := 0; val_nDim := 3 |}.
Proof.
  split; [reflexivity|]. split; [reflexivity|]. split; [reflexivity|].
  apply (harmonic_balance_zero_zones_run hb_zero_zones_env 2 sample_argv);
    reflexivity.
Defined.

(** ** The cascade as a table *)

(** X4. The order-dependent cascade of [main] selects a class exactly when
    the flat condition of that class in [decision_table] holds: the
    single-zone-only kinds give CGeneralDriver; otherwise harmonic balance
    gives CHBDriver on one zone, CGeneralHBDriver on more, and the default
    CFluidDriver on none; otherwise two zones with the fluid-structure flag
    give CFSIDriver and everything else CFluidDriver. *)
Theorem driver_selection_decision_table config nZone fsi cls :
  driver_selection config nZone fsi = cls <-> decision_table cls config nZone fsi = true.
Proof.
  unfold driver_selection, decision_table, guard.
  destruct (single_zone_solver config),
    (bool_decide (GetUnsteady_Simulation config = HARMONIC_BALANCE)),
    (Z.eqb_spec nZone 1), (Z.gtb_spec nZone 1), (Z.ltb_spec 1 nZone),
    (Z.ltb_spec nZone 1), (Z.eqb_spec nZone 2), fsi, cls;
    cbn; split; intros Hsel; first [reflexivity | discriminate Hsel | lia].
Qed.

(** ** What a run acquires and releases *)

(** X5. In a build without MPI a run makes no MPI call. In an MPI build
    [MPI_Init] is the first thing a run does; a run past the zone-count check
    then attaches the buffer and, at its very end, detaches and frees it and
    finalizes MPI, [MPI_Finalize] being its last call; a run that exits on
    the zone-count check attaches the buffer and never detaches it nor
    finalizes MPI. *)
Theorem mpi_calls_of_a_run env argc argv :
  filter (fun e => mpi_event e = true) (run env argc argv).2
  = (if HAVE_MPI env
     then [MPI_Init; MPI_Buffer_attach]
          ++ (if mismatch env argc argv then []
              else [MPI_Buffer_detach; free_buffer; MPI_Finalize])
     else [])
  /\ (if HAVE_MPI env then head (run env argc argv).2 = Some MPI_Init else True)
  /\ (if HAVE_MPI env && negb (mismatch env argc argv)
      then last (run env argc argv).2 = Some MPI_Finalize
      else MPI_Finalize ∉ (run env argc argv).2).
Proof.
  destruct (mismatch env argc argv) eqn:Hm.
  - rewrite run_mismatch by exact Hm. unfold mpi_prologue.
    destruct (HAVE_MPI env); cbn; (split; [reflexivity|]);
      (split; [reflexivity || exact I|]); not_in_trace.
  - rewrite run_normal by exact Hm. unfold mpi_prologue, mpi_epilogue.
    destruct (HAVE_MPI env); cbn; (split; [reflexivity|]);
      (split; [reflexivity || exact I|]); first [reflexivity | not_in_trace].
Qed.

(** X6. Every run constructs the CConfig object exactly once, before
    anything else it does outside MPI; a run past the zone-count check
    deletes it exactly once, and a run that exits on the check never deletes
    it: [exit] is called with the object still alive. *)
Theorem CConfig_constructed_once_deleted_unless_exit env argc argv :
  filter (fun e => config_event e = true) (run env argc argv).2
  = new_CConfig (config_file_name argc argv)
      :: (if mismatch env argc argv then [] else [delete_CConfig])
  /\ head (filter (fun e => mpi_event e = false) (run env argc argv).2)
     = Some (new_CConfig (config_file_name argc argv)).
Proof.
  destruct (mismatch env argc argv) eqn:Hm.
  - rewrite run_mismatch by exact Hm. unfold mpi_prologue.
    destruct (HAVE_MPI env); split; reflexivity.
  - rewrite run_normal by exact Hm. unfold mpi_prologue, mpi_epilogue.
    destruct (HAVE_MPI env); split; reflexivity.
Qed.

End MainCoverage.
